(** * Fork choice of go-quai: [core/forkchoice.go]

    A shallow embedding of [ForkChoice.ReorgNeeded] and
    [ForkChoice.UntwistAndTrim], and the properties of the two that the
    specification states.

    The Go code talks to its surroundings in four ways: it calls the
    [ChainReader] it was built with, it calls the optional [preserve]
    function, it draws from its private random generator, and it prints.
    All four are kept: a run is a function of a [World] (the generator and
    the list of everything done so far), and it ends either with the values
    returned or with a Go run-time panic. *)

From Stdlib Require Import ZArith QArith List String Bool Lia.
Import ListNotations.
Local Open Scope Z_scope.

(** ** Go library pieces the file uses *)

(** [math/big]: an [Int] is an integer of any size. *)
Module big.

(** [x.Cmp(y)]: -1, 0 or +1. *)
Definition Cmp (x y : Z) : Z :=
  match x ?= y with
  | Lt => -1
  | Eq => 0
  | Gt => 1
  end.

(** [x.Uint64()]: the low 64 bits of the magnitude of [x]. *)
Definition Uint64 (x : Z) : Z := Z.abs x mod 2 ^ 64.

End big.

(** Go's [error] values. Two values with the same text need not be the same
    error, so an error handed back by a collaborator carries, with its text,
    a reference that tells it apart; the ones this file builds with
    [errors.New] are determined by their text. *)
Inductive error : Type :=
| errorString (text : string)
| foreign (ref : N) (text : string).

(** [err.Error()] *)
Definition Error (err : error) : string :=
  match err with
  | errorString text => text
  | foreign _ text => text
  end.

Module errors.
Definition New (text : string) : error := errorString text.
End errors.

(** [math/rand]: a seeded generator is the sequence of numbers it is going to
    hand out and the count of those already taken. [Float64] hands out a
    float64 of [[0,1)]; every such float is a rational, and the comparison
    with the float [0.5] is the comparison of the rationals. *)
Module mrand.

Record Rand : Type := mkRand { draws : nat -> Q; taken : nat }.

Definition Float64 (r : Rand) : Q * Rand :=
  (draws r (taken r), mkRand (draws r) (S (taken r))).

End mrand.

(** [x < y] on float64 values that are rationals *)
Definition Qltb (x y : Q) : bool := negb (Qle_bool y x).

(** A Go run-time panic. *)
Inductive panic : Type := IndexOutOfRange | NilDereference.

Inductive outcome (A : Type) : Type :=
| Ret (a : A)
| Panic (p : panic).
Arguments Ret {A} a.
Arguments Panic {A} p.

(** [[]*big.Int]: [None] is the nil slice; an element is a pointer, [None]
    when it is nil. *)
Definition Td : Type := option (list (option Z)).

(** A difficulty tuple that is there: three integers. *)
Definition tuple (a b c : Z) : Td := Some [Some a; Some b; Some c].

(** [s[i]] on a slice that is not nil *)
Definition index {A : Type} (s : list A) (i : nat) : outcome A :=
  match nth_error s i with
  | Some x => Ret x
  | None => Panic IndexOutOfRange
  end.

(** [x.Cmp(y)] through the two pointers: equal pointers compare equal
    without being read (two nil pointers among them); otherwise both are
    read. *)
Definition Cmp (x y : option Z) : outcome Z :=
  match x, y with
  | Some a, Some b => Ret (big.Cmp a b)
  | None, None => Ret 0
  | _, _ => Panic NilDereference
  end.

(** The specification's names for the two errors [ReorgNeeded] makes. *)
Definition InvalidInput : error :=
  errors.New "reorg beeing calculated on nil header".

Definition MissingData : error := errors.New "missing td".

(** The two conditions [UntwistAndTrim] lets through, told by their text as
    the function tells them. *)
Definition benign (err : error) : bool :=
  (Error err =? "slice is not synced")%string ||
  (Error err =?
   "PCCOP has found chain is not being built on canonical dom")%string.

Section ForkChoice.

(** Types of the packages [common], [params] and [types] that this file
    only passes around. *)
Variables Hash ChainConfig Block PCRCTermini : Type.

(** [types.QuaiNetworkContext]: the level this node runs at. *)
Variable QuaiNetworkContext : nat.

(** Modelled from the spec: [types.Header], declared in package [types],
    which is not part of the sources at hand. A header has a positional
    number per hierarchical context, one integer per chain level, and a
    content-derived identifier. *)
Record Header : Type := mkHeader {
  Number : nat -> Z;
  Header_Hash : Hash
}.

(** [h.Number[types.QuaiNetworkContext].Uint64()] *)
Definition NumberU64 (h : Header) : Z :=
  big.Uint64 (Number h QuaiNetworkContext).

(** The interface [ChainReader]. Its implementations are not this file's
    business: an implementation is any choice of the seven answers, each
    depending on what is asked and on nothing else. *)
Record ChainReader : Type := mkChainReader {
  Config : ChainConfig;
  GetTd : Hash -> Z -> Td;
  CalcTd : Header -> Td * option error;
  GetBlockByHash : Hash -> option Block;
  HLCR : Td -> Td -> bool;
  DomReorgNeeded : Header -> bool * option error;
  PCCRC : Header -> Z -> PCRCTermini * option error;
  GetDifficultyOrder : Header -> Z * option error
}.

(** The struct [ForkChoice], but for [rand], which is a pointer to a
    generator that changes: the generator lives in the [World]. *)
Record ForkChoice : Type := mkForkChoice {
  chain : ChainReader;
  preserve : option (Header -> bool)
}.

(** What [fmt.Println] is given. *)
Inductive printed : Type :=
| PString (s : string)
| PError (err : option error).

(** Everything a run does that can be seen from outside. *)
Inductive event : Type :=
| Call_GetTd (hash : Hash) (number : Z)
| Call_CalcTd (header : Header)
| Call_HLCR (localTd externTd : Td)
| Call_PCCRC (header : Header) (headerOrder : Z)
| Call_GetDifficultyOrder (header : Header)
| Call_preserve (header : Header)
| Draw_Float64
| Println (args : list printed)
| log_Debug (msg : string) (key : string) (hash : Hash).

Record World : Type := mkWorld {
  rng : mrand.Rand;
  trace : list event
}.

(** A piece of Go code returning an [A]. *)
Definition M (A : Type) : Type := World -> outcome A * World.

Definition ret {A : Type} (a : A) : M A := fun w => (Ret a, w).

Definition bind {A B : Type} (m : M A) (k : A -> M B) : M B :=
  fun w =>
    match m w with
    | (Ret a, w') => k a w'
    | (Panic p, w') => (Panic p, w')
    end.

Definition lift {A : Type} (o : outcome A) : M A := fun w => (o, w).

Definition emit (e : event) : M unit :=
  fun w => (Ret tt, mkWorld (rng w) (trace w ++ [e])).

(** A call: it is recorded, and its answer comes back. *)
Definition call {A : Type} (e : event) (answer : A) : M A :=
  bind (emit e) (fun _ => ret answer).

(** [f.rand.Float64()] *)
Definition rand_Float64 : M Q :=
  fun w =>
    let (x, r) := mrand.Float64 (rng w) in
    (Ret x, mkWorld r (trace w ++ [Draw_Float64])).

Notation "x <- m ;; k" := (bind m (fun x => k))
  (at level 100, m at next level, right associativity).
Notation "' p <- m ;; k" := (bind m (fun x => let 'p := x in k))
  (at level 100, p pattern, m at next level, right associativity).
Notation "m ;; k" := (bind m (fun _ => k))
  (at level 100, right associativity).

(** Go's [a && b]: [b] is run only when [a] is true. *)
Definition andM (a b : M bool) : M bool :=
  x <- a ;; if x then b else ret false.

(** [externTd[i].Cmp(localTd[i]) == 0] *)
Definition component_equal (externTd localTd : list (option Z)) (i : nat)
  : M bool :=
  x <- lift (index externTd i) ;;
  y <- lift (index localTd i) ;;
  c <- lift (Cmp x y) ;;
  ret (c =? 0).

(** The right-hand side of [equalTd := ...] *)
Definition equalTd_of (externTd localTd : list (option Z)) : M bool :=
  andM (andM (component_equal externTd localTd 0)
             (component_equal externTd localTd 1))
       (component_equal externTd localTd 2).

(** The body of [if !reorg && equalTd { ... }]: what [reorg] is after it. *)
Definition tie_break (f : ForkChoice) (current header : Header)
  (reorg : bool) : M bool :=
  let number := NumberU64 header in
  let headNumber := NumberU64 current in
  if number <? headNumber then ret true
  else if number =? headNumber then
    '(currentPreserve, externPreserve) <-
      match preserve f with
      | Some p =>
          c <- call (Call_preserve current) (p current) ;;
          e <- call (Call_preserve header) (p header) ;;
          ret (c, e)
      | None => ret (false, false)
      end ;;
    if negb currentPreserve
    then if externPreserve then ret true
         else x <- rand_Float64 ;; ret (Qltb x (1 # 2))
    else ret false
  else ret reorg.

Definition ReorgNeeded (f : ForkChoice) (current header : option Header)
  : M (bool * option error) :=
  match current, header with
  | Some current, Some header =>
      localTd <- call (Call_GetTd (Header_Hash current) (NumberU64 current))
                      (GetTd (chain f) (Header_Hash current)
                             (NumberU64 current)) ;;
      emit (Println [PString "calctd from forker"]) ;;
      '(externTd, err) <- call (Call_CalcTd header)
                               (CalcTd (chain f) header) ;;
      match err with
      | Some err => ret (false, Some err)
      | None =>
          match localTd, externTd with
          | Some l, Some e =>
              reorg <- call (Call_HLCR localTd externTd)
                            (HLCR (chain f) localTd externTd) ;;
              equalTd <- equalTd_of e l ;;
              reorg <- (if negb reorg && equalTd
                        then tie_break f current header reorg
                        else ret reorg) ;;
              ret (reorg, None)
          | _, _ => ret (false, Some (errors.New "missing td"))
          end
      end
  | _, _ =>
      ret (false,
           Some (errors.New "reorg beeing calculated on nil header"))
  end.

(** The header pointer is taken to point at a header: the function hands
    it to the collaborators and to [Hash] and never looks at it itself. *)
Definition UntwistAndTrim (f : ForkChoice) (header : Header)
  : M (option error) :=
  '(headerOrder, err) <- call (Call_GetDifficultyOrder header)
                              (GetDifficultyOrder (chain f) header) ;;
  match err with
  | Some err => ret (Some err)
  | None =>
      '(_, err) <- call (Call_PCCRC header headerOrder)
                        (PCCRC (chain f) header headerOrder) ;;
      emit (Println [PString "PCCRC"; PError err]) ;;
      match err with
      | Some e =>
          if (Error e =? "slice is not synced")%string then
            emit (Println [PString "PCCRC"; PError err]) ;;
            emit (log_Debug "Slice not synced, no nothing" "hash"
                            (Header_Hash header)) ;;
            ret None
          else if (Error e =?
                   "PCCOP has found chain is not being built on canonical dom"
                  )%string then
            ret None
          else
            emit (Println [PString "PCCRC"; PError err]) ;;
            ret (Some e)
      | None => ret None
      end
  end.

(** The four things every run on two headers does first when [CalcTd]
    answers without an error and neither tuple is nil. *)
Definition prologue (current header : Header) (localTd externTd : Td)
  : list event :=
  [ Call_GetTd (Header_Hash current) (NumberU64 current);
    Println [PString "calctd from forker"];
    Call_CalcTd header;
    Call_HLCR localTd externTd ].

End ForkChoice.

Arguments mkHeader {Hash} Number Header_Hash.
Arguments Number {Hash} h _.
Arguments Header_Hash {Hash} h.
Arguments NumberU64 {Hash} QuaiNetworkContext h.
Arguments mkChainReader {Hash ChainConfig Block PCRCTermini}.
Arguments Config {Hash ChainConfig Block PCRCTermini} c.
Arguments GetTd {Hash ChainConfig Block PCRCTermini} c _ _.
Arguments CalcTd {Hash ChainConfig Block PCRCTermini} c _.
Arguments GetBlockByHash {Hash ChainConfig Block PCRCTermini} c _.
Arguments HLCR {Hash ChainConfig Block PCRCTermini} c _ _.
Arguments DomReorgNeeded {Hash ChainConfig Block PCRCTermini} c _.
Arguments PCCRC {Hash ChainConfig Block PCRCTermini} c _ _.
Arguments GetDifficultyOrder {Hash ChainConfig Block PCRCTermini} c _.
Arguments mkForkChoice {Hash ChainConfig Block PCRCTermini} chain preserve.
Arguments chain {Hash ChainConfig Block PCRCTermini} f.
Arguments preserve {Hash ChainConfig Block PCRCTermini} f.
Arguments Call_GetTd {Hash}.
Arguments Call_CalcTd {Hash}.
Arguments Call_HLCR {Hash}.
Arguments Call_PCCRC {Hash}.
Arguments Call_GetDifficultyOrder {Hash}.
Arguments Call_preserve {Hash}.
Arguments Draw_Float64 {Hash}.
Arguments Println {Hash}.
Arguments log_Debug {Hash}.
Arguments mkWorld {Hash} rng trace.
Arguments rng {Hash} w.
Arguments trace {Hash} w.
Arguments ret {Hash A} a _.
Arguments bind {Hash A B} m k _.
Arguments tie_break {Hash ChainConfig Block PCRCTermini}
  QuaiNetworkContext f current header reorg _.
Arguments equalTd_of {Hash} externTd localTd _.
Arguments component_equal {Hash} externTd localTd i _.
Arguments ReorgNeeded {Hash ChainConfig Block PCRCTermini}
  QuaiNetworkContext f current header _.
Arguments UntwistAndTrim {Hash ChainConfig Block PCRCTermini} f header _.
Arguments prologue {Hash} QuaiNetworkContext current header localTd externTd.

(** ** Test doubles

    A reader that gives the same answers whatever it is asked, headers that
    have one number at every level, and generators that always hand out the
    same number. Hashes are integers here; the types that are only passed
    around are [unit]. *)
Module Doubles.

Definition reader (getTd : Td) (calcTd : Td * option error) (hlcr : bool)
  (order : Z * option error) (pccrc : option error)
  : ChainReader Z unit unit unit :=
  mkChainReader tt
    (fun _ _ => getTd)
    (fun _ => calcTd)
    (fun _ => None)
    (fun _ _ => hlcr)
    (fun _ => (false, None))
    (fun _ _ => (tt, pccrc))
    (fun _ => order).

(** A reader for [ReorgNeeded] *)
Definition td_reader (getTd : Td) (calcTd : Td * option error)
  (hlcr : bool) : ChainReader Z unit unit unit :=
  reader getTd calcTd hlcr (0, None) None.

(** A reader for [UntwistAndTrim] *)
Definition order_reader (order : Z * option error) (pccrc : option error)
  : ChainReader Z unit unit unit :=
  reader None (None, None) false order pccrc.

Definition header_at (number hash : Z) : Header Z :=
  mkHeader (fun _ => number) hash.

(** The zone level *)
Definition ZONE : nat := 2%nat.

Definition world (x : Q) : World Z :=
  mkWorld (mrand.mkRand (fun _ => x) 0) [].

Definition mine (h : Header Z) : bool := Header_Hash h =? 7.

Definition ancestor_unknown : error := foreign 1 "unknown ancestor".

(** The head, and three candidates: one below it, one level with it, one
    above it. *)
Definition head : Header Z := header_at 5 7.
Definition lower : Header Z := header_at 4 8.
Definition level : Header Z := header_at 5 8.
Definition higher : Header Z := header_at 6 8.

Definition forker (getTd : Td) (calcTd : Td * option error) (hlcr : bool)
  (preserve : option (Header Z -> bool)) : ForkChoice Z unit unit unit :=
  mkForkChoice (td_reader getTd calcTd hlcr) preserve.

Definition untwister (order : Z * option error) (pccrc : option error)
  : ForkChoice Z unit unit unit :=
  mkForkChoice (order_reader order pccrc) None.

End Doubles.

(** ** Facts about the library pieces *)

Lemma Cmp_zero (a b : Z) : (big.Cmp a b =? 0) = (a =? b).
Proof.
  unfold big.Cmp. rewrite (Z.eqb_compare a b).
  destruct (a ?= b); reflexivity.
Qed.

Lemma Uint64_small (n : Z) : 0 <= n < 2 ^ 64 -> big.Uint64 n = n.
Proof.
  intros Hn. unfold big.Uint64.
  rewrite Z.abs_eq by lia. apply Z.mod_small. exact Hn.
Qed.

Lemma Uint64_range (n : Z) : 0 <= big.Uint64 n < 2 ^ 64.
Proof. unfold big.Uint64. apply Z.mod_pos_bound. lia. Qed.

Lemma Qltb_lt (x y : Q) : Qltb x y = true <-> (x < y)%Q.
Proof.
  unfold Qltb. rewrite negb_true_iff.
  split.
  - intros Hb. apply Qnot_le_lt. intros Hle.
    apply Qle_bool_iff in Hle. congruence.
  - intros Hlt. destruct (Qle_bool y x) eqn:Hb; [|reflexivity].
    apply Qle_bool_iff in Hb. exfalso. exact (Qlt_not_le _ _ Hlt Hb).
Qed.

Lemma Qltb_nlt (x y : Q) : Qltb x y = false <-> ~ (x < y)%Q.
Proof.
  rewrite <- Qltb_lt. destruct (Qltb x y); split; congruence.
Qed.

(** ** What the two functions do *)

Section Properties.

Context {Hash ChainConfig Block PCRCTermini : Type}.
Variable QuaiNetworkContext : nat.


Implicit Types (f : ForkChoice Hash ChainConfig Block PCRCTermini).
Implicit Types (w : World Hash) (e : error) (cur cand : Header Hash).

Lemma equalTd_of_tuples (a0 a1 a2 b0 b1 b2 : Z) w :
  equalTd_of [Some b0; Some b1; Some b2] [Some a0; Some a1; Some a2] w =
  (Ret ((b0 =? a0) && (b1 =? a1) && (b2 =? a2)), w).
Proof.
  unfold equalTd_of, andM, component_equal, bind, lift, ret. simpl.
  rewrite !Cmp_zero.
  destruct (b0 =? a0); simpl; [|reflexivity].
  destruct (b1 =? a1); simpl; reflexivity.
Qed.

(** A run on two headers whose tuples are both there: after the prologue,
    the answer of [HLCR] stands unless it is false and the tuples are
    equal, in which case the tie break decides. *)
Lemma ReorgNeeded_tuples f cur cand (a0 a1 a2 b0 b1 b2 : Z) w :
  GetTd (chain f) (Header_Hash cur) (NumberU64 QuaiNetworkContext cur)
    = tuple a0 a1 a2 ->
  CalcTd (chain f) cand = (tuple b0 b1 b2, None) ->
  ReorgNeeded QuaiNetworkContext f (Some cur) (Some cand) w =
  let w' := mkWorld (rng w)
              (trace w ++
               prologue QuaiNetworkContext cur cand
                 (tuple a0 a1 a2) (tuple b0 b1 b2)) in
  let reorg := HLCR (chain f) (tuple a0 a1 a2) (tuple b0 b1 b2) in
  if negb reorg && ((b0 =? a0) && (b1 =? a1) && (b2 =? a2))
  then bind (tie_break QuaiNetworkContext f cur cand reorg)
            (fun r => ret (r, None)) w'
  else (Ret (reorg, None), w').
Proof.
  intros Hl He.
  unfold ReorgNeeded, call, emit.
  unfold bind at 1 2 3 4. simpl.
  rewrite Hl, He. simpl.
  unfold bind at 1 2, ret at 1. simpl.
  unfold bind at 1. rewrite equalTd_of_tuples.
  unfold prologue. rewrite <- !app_assoc. simpl.
  destruct (negb _ && _); [reflexivity|].
  unfold bind, ret. reflexivity.
Qed.

(** The tie break, branch by branch. *)
Lemma tie_break_lower f cur cand (reorg : bool) w :
  NumberU64 QuaiNetworkContext cand < NumberU64 QuaiNetworkContext cur ->
  tie_break QuaiNetworkContext f cur cand reorg w = (Ret true, w).
Proof.
  intros Hlt. unfold tie_break.
  apply Z.ltb_lt in Hlt. rewrite Hlt. reflexivity.
Qed.

Lemma tie_break_higher f cur cand (reorg : bool) w :
  NumberU64 QuaiNetworkContext cand > NumberU64 QuaiNetworkContext cur ->
  tie_break QuaiNetworkContext f cur cand reorg w = (Ret reorg, w).
Proof.
  intros Hgt. unfold tie_break.
  destruct (Z.ltb_spec (NumberU64 QuaiNetworkContext cand)
                       (NumberU64 QuaiNetworkContext cur)); [lia|].
  destruct (Z.eqb_spec (NumberU64 QuaiNetworkContext cand)
                       (NumberU64 QuaiNetworkContext cur)); [lia|].
  reflexivity.
Qed.

Lemma tie_break_level_preserve f cur cand (reorg : bool) p w :
  NumberU64 QuaiNetworkContext cand = NumberU64 QuaiNetworkContext cur ->
  preserve f = Some p ->
  tie_break QuaiNetworkContext f cur cand reorg w =
  let w' := mkWorld (rng w)
              (trace w ++ [Call_preserve cur; Call_preserve cand]) in
  if negb (p cur)
  then if p cand then (Ret true, w')
       else (Ret (Qltb (mrand.draws (rng w) (mrand.taken (rng w))) (1 # 2)),
             mkWorld (mrand.mkRand (mrand.draws (rng w))
                                   (S (mrand.taken (rng w))))
                     (trace w' ++ [Draw_Float64]))
  else (Ret false, w').
Proof.
  intros Heq Hp. unfold tie_break. rewrite Heq, Z.ltb_irrefl, Z.eqb_refl, Hp.
  unfold call, emit, bind, ret, rand_Float64. simpl.
  destruct (p cur), (p cand); simpl; rewrite <- ?app_assoc; reflexivity.
Qed.

Lemma tie_break_level_nil f cur cand (reorg : bool) w :
  NumberU64 QuaiNetworkContext cand = NumberU64 QuaiNetworkContext cur ->
  preserve f = None ->
  tie_break QuaiNetworkContext f cur cand reorg w =
  (Ret (Qltb (mrand.draws (rng w) (mrand.taken (rng w))) (1 # 2)),
   mkWorld (mrand.mkRand (mrand.draws (rng w)) (S (mrand.taken (rng w))))
           (trace w ++ [Draw_Float64])).
Proof.
  intros Heq Hp. unfold tie_break. rewrite Heq, Z.ltb_irrefl, Z.eqb_refl, Hp.
  reflexivity.
Qed.

(** [equalTd] is true on equal tuples. *)
Lemma tuples_tied (a0 a1 a2 b0 b1 b2 : Z) :
  b0 = a0 -> b1 = a1 -> b2 = a2 ->
  (b0 =? a0) && (b1 =? a1) && (b2 =? a2) = true.
Proof. intros -> -> ->. rewrite !Z.eqb_refl. reflexivity. Qed.

(** C1. Two headers, neither nil, both difficulty tuples there, and [HLCR]
    says the external tuple is the greater: [ReorgNeeded] returns
    [(true, nil)]. *)
Theorem ReorgNeeded_heavier f cur cand (a0 a1 a2 b0 b1 b2 : Z) w :
  GetTd (chain f) (Header_Hash cur) (NumberU64 QuaiNetworkContext cur)
    = tuple a0 a1 a2 ->
  CalcTd (chain f) cand = (tuple b0 b1 b2, None) ->
  HLCR (chain f) (tuple a0 a1 a2) (tuple b0 b1 b2) = true ->
  fst (ReorgNeeded QuaiNetworkContext f (Some cur) (Some cand) w)
    = Ret (true, None).
Proof.
  intros Hl He Hh.
  rewrite (ReorgNeeded_tuples f cur cand a0 a1 a2 b0 b1 b2 w Hl He).
  cbv zeta. rewrite Hh. reflexivity.
Qed.

(** C2. Both tuples there, [HLCR] false, the three components equal, and the
    candidate's number at the node's own level below the head's:
    [ReorgNeeded] returns [(true, nil)], whatever [preserve] is; the
    generator is left as it was, and nothing is done after the call of
    [HLCR]: [preserve] is not called and no number is drawn. *)
Theorem ReorgNeeded_tie_lower f cur cand (a0 a1 a2 b0 b1 b2 : Z) w :
  GetTd (chain f) (Header_Hash cur) (NumberU64 QuaiNetworkContext cur)
    = tuple a0 a1 a2 ->
  CalcTd (chain f) cand = (tuple b0 b1 b2, None) ->
  HLCR (chain f) (tuple a0 a1 a2) (tuple b0 b1 b2) = false ->
  b0 = a0 -> b1 = a1 -> b2 = a2 ->
  NumberU64 QuaiNetworkContext cand < NumberU64 QuaiNetworkContext cur ->
  ReorgNeeded QuaiNetworkContext f (Some cur) (Some cand) w =
  (Ret (true, None),
   mkWorld (rng w)
     (trace w ++
      prologue QuaiNetworkContext cur cand
        (tuple a0 a1 a2) (tuple b0 b1 b2))).
Proof.
  intros Hl He Hh E0 E1 E2 Hlt.
  rewrite (ReorgNeeded_tuples f cur cand a0 a1 a2 b0 b1 b2 w Hl He).
  cbv zeta. rewrite Hh, (tuples_tied _ _ _ _ _ _ E0 E1 E2). simpl.
  unfold bind. rewrite (tie_break_lower _ _ _ _ _ Hlt). reflexivity.
Qed.

(** C3. Both tuples there, [HLCR] false, the three components equal, the two
    numbers equal, and a [preserve] that is true of the head and false of
    the candidate: [ReorgNeeded] returns [(false, nil)] whatever the
    generator would hand out, and does not draw from it. *)
Theorem ReorgNeeded_tie_keeps_preserved f cur cand p
  (a0 a1 a2 b0 b1 b2 : Z) w :
  GetTd (chain f) (Header_Hash cur) (NumberU64 QuaiNetworkContext cur)
    = tuple a0 a1 a2 ->
  CalcTd (chain f) cand = (tuple b0 b1 b2, None) ->
  HLCR (chain f) (tuple a0 a1 a2) (tuple b0 b1 b2) = false ->
  b0 = a0 -> b1 = a1 -> b2 = a2 ->
  NumberU64 QuaiNetworkContext cand = NumberU64 QuaiNetworkContext cur ->
  preserve f = Some p -> p cur = true -> p cand = false ->
  fst (ReorgNeeded QuaiNetworkContext f (Some cur) (Some cand) w)
    = Ret (false, None) /\
  rng (snd (ReorgNeeded QuaiNetworkContext f (Some cur) (Some cand) w))
    = rng w.
Proof.
  intros Hl He Hh E0 E1 E2 Heq Hp Hcur Hcand.
  rewrite (ReorgNeeded_tuples f cur cand a0 a1 a2 b0 b1 b2 w Hl He).
  cbv zeta. rewrite Hh, (tuples_tied _ _ _ _ _ _ E0 E1 E2). simpl.
  unfold bind. rewrite (tie_break_level_preserve _ _ _ _ _ _ Heq Hp).
  cbv zeta. rewrite Hcur. simpl. split; reflexivity.
Qed.

(** C4. Both tuples there, [HLCR] false, the three components equal, and the
    candidate's number above the head's: no branch of the tie break
    applies and [ReorgNeeded] returns [(false, nil)]. *)
Theorem ReorgNeeded_tie_higher f cur cand (a0 a1 a2 b0 b1 b2 : Z) w :
  GetTd (chain f) (Header_Hash cur) (NumberU64 QuaiNetworkContext cur)
    = tuple a0 a1 a2 ->
  CalcTd (chain f) cand = (tuple b0 b1 b2, None) ->
  HLCR (chain f) (tuple a0 a1 a2) (tuple b0 b1 b2) = false ->
  b0 = a0 -> b1 = a1 -> b2 = a2 ->
  NumberU64 QuaiNetworkContext cand > NumberU64 QuaiNetworkContext cur ->
  ReorgNeeded QuaiNetworkContext f (Some cur) (Some cand) w =
  (Ret (false, None),
   mkWorld (rng w)
     (trace w ++
      prologue QuaiNetworkContext cur cand
        (tuple a0 a1 a2) (tuple b0 b1 b2))).
Proof.
  intros Hl He Hh E0 E1 E2 Hgt.
  rewrite (ReorgNeeded_tuples f cur cand a0 a1 a2 b0 b1 b2 w Hl He).
  cbv zeta. rewrite Hh, (tuples_tied _ _ _ _ _ _ E0 E1 E2). simpl.
  unfold bind. rewrite (tie_break_higher _ _ _ _ _ Hgt). reflexivity.
Qed.

(** C5. With a nil head or a nil candidate, whatever the other header is,
    [ReorgNeeded] returns false and the error the specification calls
    InvalidInput, and the world is as it was: no collaborator has been
    called. *)
Theorem ReorgNeeded_nil_header f (h : option (Header Hash)) w :
  ReorgNeeded QuaiNetworkContext f None h w
    = (Ret (false, Some InvalidInput), w) /\
  ReorgNeeded QuaiNetworkContext f h None w
    = (Ret (false, Some InvalidInput), w).
Proof. destruct h; split; reflexivity. Qed.

(** When [CalcTd] fails, the run ends there. *)
Lemma ReorgNeeded_CalcTd_fails f cur cand (externTd : Td) e w :
  CalcTd (chain f) cand = (externTd, Some e) ->
  ReorgNeeded QuaiNetworkContext f (Some cur) (Some cand) w =
  (Ret (false, Some e),
   mkWorld (rng w)
     (trace w ++
      [ Call_GetTd (Header_Hash cur) (NumberU64 QuaiNetworkContext cur);
        Println [PString "calctd from forker"];
        Call_CalcTd cand ])).
Proof.
  intros He. unfold ReorgNeeded, call, emit, bind, ret. simpl.
  rewrite He. simpl. rewrite <- !app_assoc. reflexivity.
Qed.

(** When it does not and a tuple is nil, the run ends with "missing td". *)
Lemma ReorgNeeded_nil_tuple f cur cand (externTd : Td) w :
  CalcTd (chain f) cand = (externTd, None) ->
  GetTd (chain f) (Header_Hash cur) (NumberU64 QuaiNetworkContext cur) = None
  \/ externTd = None ->
  ReorgNeeded QuaiNetworkContext f (Some cur) (Some cand) w =
  (Ret (false, Some MissingData),
   mkWorld (rng w)
     (trace w ++
      [ Call_GetTd (Header_Hash cur) (NumberU64 QuaiNetworkContext cur);
        Println [PString "calctd from forker"];
        Call_CalcTd cand ])).
Proof.
  intros He Hnil. unfold ReorgNeeded, call, emit, bind, ret. simpl.
  rewrite He. simpl. rewrite <- !app_assoc.
  destruct Hnil as [-> | ->]; [reflexivity|].
  destruct (GetTd _ _ _); reflexivity.
Qed.

(** C6, as the code has it. For two headers, neither nil: if [CalcTd] fails,
    [ReorgNeeded] returns false and that very error, whether or not the
    local tuple is there; if [CalcTd] does not fail and the local tuple or
    the computed one is nil, [ReorgNeeded] returns false and the error the
    specification calls MissingData. *)
Theorem ReorgNeeded_failed_or_missing f cur cand
  (localTd externTd : Td) (err : option error) w :
  GetTd (chain f) (Header_Hash cur) (NumberU64 QuaiNetworkContext cur)
    = localTd ->
  CalcTd (chain f) cand = (externTd, err) ->
  (forall e, err = Some e ->
     fst (ReorgNeeded QuaiNetworkContext f (Some cur) (Some cand) w)
       = Ret (false, Some e)) /\
  (err = None -> localTd = None \/ externTd = None ->
     fst (ReorgNeeded QuaiNetworkContext f (Some cur) (Some cand) w)
       = Ret (false, Some MissingData)).
Proof.
  intros Hl He. split.
  - intros e ->. rewrite (ReorgNeeded_CalcTd_fails _ _ _ _ _ _ He).
    reflexivity.
  - intros -> Hnil. rewrite (ReorgNeeded_nil_tuple _ _ _ _ _ He).
    + reflexivity.
    + rewrite Hl. exact Hnil.
Qed.

(** C10. No [preserve] function, both tuples there, [HLCR] false, the three
    components equal and the two numbers equal: neither header counts as
    preferred, [preserve] is not called, one number is drawn, and
    [ReorgNeeded] returns [(true, nil)] when that number is below one half
    and [(false, nil)] when it is not. *)
Theorem ReorgNeeded_tie_coin f cur cand (a0 a1 a2 b0 b1 b2 : Z) w :
  GetTd (chain f) (Header_Hash cur) (NumberU64 QuaiNetworkContext cur)
    = tuple a0 a1 a2 ->
  CalcTd (chain f) cand = (tuple b0 b1 b2, None) ->
  HLCR (chain f) (tuple a0 a1 a2) (tuple b0 b1 b2) = false ->
  b0 = a0 -> b1 = a1 -> b2 = a2 ->
  NumberU64 QuaiNetworkContext cand = NumberU64 QuaiNetworkContext cur ->
  preserve f = None ->
  let x := mrand.draws (rng w) (mrand.taken (rng w)) in
  ((x < 1 # 2)%Q ->
     fst (ReorgNeeded QuaiNetworkContext f (Some cur) (Some cand) w)
       = Ret (true, None)) /\
  (~ (x < 1 # 2)%Q ->
     fst (ReorgNeeded QuaiNetworkContext f (Some cur) (Some cand) w)
       = Ret (false, None)) /\
  snd (ReorgNeeded QuaiNetworkContext f (Some cur) (Some cand) w) =
  mkWorld (mrand.mkRand (mrand.draws (rng w)) (S (mrand.taken (rng w))))
    (trace w ++
     prologue QuaiNetworkContext cur cand (tuple a0 a1 a2) (tuple b0 b1 b2)
     ++ [Draw_Float64]).
Proof.
  intros Hl He Hh E0 E1 E2 Heq Hp x.
  rewrite (ReorgNeeded_tuples f cur cand a0 a1 a2 b0 b1 b2 w Hl He).
  cbv zeta. rewrite Hh, (tuples_tied _ _ _ _ _ _ E0 E1 E2). simpl.
  unfold bind. rewrite (tie_break_level_nil _ _ _ _ _ Heq Hp). simpl.
  fold x. repeat split.
  - intros Hx. apply Qltb_lt in Hx. rewrite Hx. reflexivity.
  - intros Hx. apply Qltb_nlt in Hx. rewrite Hx. reflexivity.
  - unfold ret. simpl. rewrite <- app_assoc. reflexivity.
Qed.

(** C7. The level is found and [PCCRC] fails with one of the two conditions
    that are let through: [UntwistAndTrim] returns nil. *)
Theorem UntwistAndTrim_benign f (h : Header Hash) (order : Z)
  (termini : PCRCTermini) e w :
  GetDifficultyOrder (chain f) h = (order, None) ->
  PCCRC (chain f) h order = (termini, Some e) ->
  benign e = true ->
  fst (UntwistAndTrim f h w) = Ret None.
Proof.
  intros Ho Hc Hb. unfold UntwistAndTrim, call, emit, bind, ret. simpl.
  rewrite Ho. simpl. rewrite Hc. simpl.
  unfold benign in Hb. apply orb_true_iff in Hb.
  destruct (Error e =? "slice is not synced")%string; [reflexivity|].
  destruct Hb as [Hb | Hb]; [discriminate|].
  rewrite Hb. reflexivity.
Qed.

(** C8. [UntwistAndTrim] returns unchanged the error of a failed
    [GetDifficultyOrder], and the error of a failed [PCCRC] that is neither
    of the two conditions let through; it returns nil when [PCCRC]
    succeeds. *)
Theorem UntwistAndTrim_propagates f (h : Header Hash) (order : Z)
  (termini : PCRCTermini) (err1 err2 : option error) w :
  GetDifficultyOrder (chain f) h = (order, err1) ->
  PCCRC (chain f) h order = (termini, err2) ->
  (forall e, err1 = Some e -> fst (UntwistAndTrim f h w) = Ret (Some e)) /\
  (forall e, err1 = None -> err2 = Some e -> benign e = false ->
     fst (UntwistAndTrim f h w) = Ret (Some e)) /\
  (err1 = None -> err2 = None -> fst (UntwistAndTrim f h w) = Ret None).
Proof.
  intros Ho Hc.
  unfold UntwistAndTrim, call, emit, bind, ret. simpl. rewrite Ho. simpl.
  repeat split.
  - intros e ->. reflexivity.
  - intros e -> -> Hb. rewrite Hc. simpl.
    unfold benign in Hb. apply orb_false_iff in Hb.
    destruct Hb as [H1 H2]. rewrite H1, H2. reflexivity.
  - intros -> ->. rewrite Hc. reflexivity.
Qed.

(** Comparing the tuples reads nothing of the world and leaves it alone. *)
Lemma component_equal_pure (externTd localTd : list (option Z)) (i : nat) :
  exists o, forall w, component_equal externTd localTd i w = (o, w).
Proof.
  unfold component_equal, bind, lift, ret.
  destruct (index externTd i) as [x|px]; [|eexists; intros; reflexivity].
  destruct (index localTd i) as [y|py]; [|eexists; intros; reflexivity].
  destruct (Cmp x y) as [c|pc]; eexists; intros; reflexivity.
Qed.

Lemma equalTd_of_pure (externTd localTd : list (option Z)) :
  exists o, forall w, equalTd_of externTd localTd w = (o, w).
Proof.
  destruct (component_equal_pure externTd localTd 0) as [o0 H0].
  destruct (component_equal_pure externTd localTd 1) as [o1 H1].
  destruct (component_equal_pure externTd localTd 2) as [o2 H2].
  unfold equalTd_of, andM, bind, ret.
  destruct o0 as [[|]|p0]; [destruct o1 as [[|]|p1]| |];
    eexists; intros w; rewrite H0, ?H1, ?H2; reflexivity.
Qed.

(** Runs the code as far as the equations at hand take it. *)
Ltac run_to_end :=
  unfold ReorgNeeded, tie_break, call, emit, bind, ret, rand_Float64;
  simpl;
  repeat (match goal with H : _ |- _ => rewrite H end; simpl);
  rewrite <- ?app_assoc; simpl; reflexivity.

(** Whether a run of [ReorgNeeded] draws a number does not depend on the
    world it starts in: either no run draws, and then all runs return the
    same and do the same; or every run draws. *)
Lemma ReorgNeeded_draws_or_not f (cur cand : option (Header Hash)) :
  (exists r evs, forall w,
     ReorgNeeded QuaiNetworkContext f cur cand w =
     (r, mkWorld (rng w) (trace w ++ evs))) \/
  (forall w,
     mrand.taken (rng (snd (ReorgNeeded QuaiNetworkContext f cur cand w)))
     = S (mrand.taken (rng w))).
Proof.
  destruct cur as [cur|], cand as [cand|];
    try (left; exists (Ret (false, Some InvalidInput)), [];
         intros [r t]; simpl; rewrite app_nil_r; reflexivity).
  destruct (CalcTd (chain f) cand) as [externTd [e|]] eqn:He.
  { left. eexists. eexists. intros w.
    apply (ReorgNeeded_CalcTd_fails f cur cand externTd e w He). }
  destruct (GetTd (chain f) (Header_Hash cur)
              (NumberU64 QuaiNetworkContext cur)) as [l|] eqn:Hl.
  2:{ left. eexists. eexists. intros w.
      apply (ReorgNeeded_nil_tuple f cur cand externTd w He).
      left. exact Hl. }
  destruct externTd as [x|].
  2:{ left. eexists. eexists. intros w.
      apply (ReorgNeeded_nil_tuple f cur cand None w He).
      right. reflexivity. }
  destruct (equalTd_of_pure x l) as [o Ho].
  destruct (HLCR (chain f) (Some l) (Some x)) eqn:Hh;
    destruct o as [[|]|p];
    try (left; eexists; eexists; intros w; run_to_end).
  destruct (NumberU64 QuaiNetworkContext cand <?
            NumberU64 QuaiNetworkContext cur) eqn:Hlt;
    [left; eexists; eexists; intros w; run_to_end|].
  destruct (NumberU64 QuaiNetworkContext cand =?
            NumberU64 QuaiNetworkContext cur) eqn:Heq;
    [|left; eexists; eexists; intros w; run_to_end].
  destruct (preserve f) as [p|] eqn:Hp.
  - destruct (p cur) eqn:Hcur; [|destruct (p cand) eqn:Hcand].
    + left. eexists. eexists. intros w. run_to_end.
    + left. eexists. eexists. intros w. run_to_end.
    + right. intros w. run_to_end.
  - right. intros w. run_to_end.
Qed.

(** The cases the coin flip is not reached in, when both tuples are there:
    the tuples differ, or the numbers differ, or [preserve] is there and is
    true of one of the two headers. *)
Lemma ReorgNeeded_no_draw f cur cand (a0 a1 a2 b0 b1 b2 : Z) w :
  GetTd (chain f) (Header_Hash cur) (NumberU64 QuaiNetworkContext cur)
    = tuple a0 a1 a2 ->
  CalcTd (chain f) cand = (tuple b0 b1 b2, None) ->
  (b0, b1, b2) <> (a0, a1, a2) \/
  NumberU64 QuaiNetworkContext cand <> NumberU64 QuaiNetworkContext cur \/
  (exists p, preserve f = Some p /\ (p cur = true \/ p cand = true)) ->
  rng (snd (ReorgNeeded QuaiNetworkContext f (Some cur) (Some cand) w))
    = rng w.
Proof.
  intros Hl He Hcase.
  rewrite (ReorgNeeded_tuples f cur cand a0 a1 a2 b0 b1 b2 w Hl He).
  cbv zeta.
  destruct (negb _ && _) eqn:Hc; [|reflexivity].
  apply andb_true_iff in Hc. destruct Hc as [_ Hc].
  apply andb_true_iff in Hc. destruct Hc as [Hc E2].
  apply andb_true_iff in Hc. destruct Hc as [E0 E1].
  apply Z.eqb_eq in E0, E1, E2. subst b0 b1 b2.
  unfold bind.
  destruct (Z.lt_trichotomy (NumberU64 QuaiNetworkContext cand)
                            (NumberU64 QuaiNetworkContext cur))
    as [Hlt | [Heq | Hgt]].
  - rewrite (tie_break_lower _ _ _ _ _ Hlt). reflexivity.
  - destruct Hcase as [Hne | [Hne | (p & Hp & Hpref)]];
      [exfalso; apply Hne; reflexivity | exfalso; exact (Hne Heq) |].
    rewrite (tie_break_level_preserve _ _ _ _ _ _ Heq Hp). cbv zeta.
    destruct (p cur); [reflexivity|].
    destruct Hpref as [Hpref | Hpref]; [discriminate|].
    rewrite Hpref. reflexivity.
  - rewrite (tie_break_higher _ _ _ _ _ (Z.lt_gt _ _ Hgt)). reflexivity.
Qed.

(** C9. A run of [ReorgNeeded] that does not reach the coin flip (it leaves
    the count of numbers drawn as it was) returns what any other run on the
    same headers, with the same collaborator answers, returns, whatever the
    generator and whatever was done before; and that other run draws no
    number either. *)
Theorem ReorgNeeded_deterministic f (cur cand : option (Header Hash))
  (w1 w2 : World Hash) :
  mrand.taken (rng (snd (ReorgNeeded QuaiNetworkContext f cur cand w1)))
    = mrand.taken (rng w1) ->
  fst (ReorgNeeded QuaiNetworkContext f cur cand w2)
    = fst (ReorgNeeded QuaiNetworkContext f cur cand w1) /\
  rng (snd (ReorgNeeded QuaiNetworkContext f cur cand w2)) = rng w2.
Proof.
  intros Hsame.
  destruct (ReorgNeeded_draws_or_not f cur cand) as [(r & evs & Hrun) | Hdraw].
  - rewrite (Hrun w1), (Hrun w2). split; reflexivity.
  - rewrite (Hdraw w1) in Hsame. exfalso. lia.
Qed.

End Properties.

(** ** The theorems at work on the test doubles *)

Import Doubles.

(** C1 on a head and a higher candidate whose tuple [HLCR] finds greater. *)
Lemma ReorgNeeded_heavier_witness :
  fst (ReorgNeeded ZONE
         (forker (tuple 1 2 3) (tuple 1 2 4, None) true None)
         (Some head) (Some higher) (world (3 # 4)))
  = Ret (true, None).
Proof.
  apply (ReorgNeeded_heavier ZONE _ head higher 1 2 3 1 2 4);
    reflexivity.
Defined.

(** C2 on a tie with a candidate one block below the head, and a
    [preserve] that holds of the head. *)
Lemma ReorgNeeded_tie_lower_witness :
  ReorgNeeded ZONE
    (forker (tuple 1 2 3) (tuple 1 2 3, None) false (Some mine))
    (Some head) (Some lower) (world (3 # 4))
  = (Ret (true, None),
     mkWorld (mrand.mkRand (fun _ => 3 # 4)%Q 0)
       [ Call_GetTd 7 5; Println [PString "calctd from forker"];
         Call_CalcTd lower; Call_HLCR (tuple 1 2 3) (tuple 1 2 3) ]).
Proof.
  apply (ReorgNeeded_tie_lower ZONE _ head lower 1 2 3 1 2 3);
    reflexivity.
Defined.

(** C3 on a tie at the same number, the head being the node's own block,
    with a generator that would have said yes. *)
Lemma ReorgNeeded_tie_keeps_preserved_witness :
  fst (ReorgNeeded ZONE
         (forker (tuple 1 2 3) (tuple 1 2 3, None) false (Some mine))
         (Some head) (Some level) (world (1 # 4)))
  = Ret (false, None) /\
  rng (snd (ReorgNeeded ZONE
              (forker (tuple 1 2 3) (tuple 1 2 3, None) false (Some mine))
              (Some head) (Some level) (world (1 # 4))))
  = mrand.mkRand (fun _ => 1 # 4)%Q 0.
Proof.
  apply (ReorgNeeded_tie_keeps_preserved ZONE _ head level mine
           1 2 3 1 2 3);
    reflexivity.
Defined.

(** C4 on a tie with a candidate one block above the head. *)
Lemma ReorgNeeded_tie_higher_witness :
  ReorgNeeded ZONE
    (forker (tuple 1 2 3) (tuple 1 2 3, None) false None)
    (Some head) (Some higher) (world (1 # 4))
  = (Ret (false, None),
     mkWorld (mrand.mkRand (fun _ => 1 # 4)%Q 0)
       [ Call_GetTd 7 5; Println [PString "calctd from forker"];
         Call_CalcTd higher; Call_HLCR (tuple 1 2 3) (tuple 1 2 3) ]).
Proof.
  apply (ReorgNeeded_tie_higher ZONE _ head higher 1 2 3 1 2 3);
    reflexivity.
Defined.

(** C6 as stated does not hold: with no stored tuple for the head and a
    [CalcTd] that fails, [ReorgNeeded] returns the error of [CalcTd], which
    is not the "missing td" error, in value or in text. *)
Lemma ReorgNeeded_nil_local_td_other_error :
  GetTd (chain (forker None (None, Some ancestor_unknown) false None))
        (Header_Hash head) (NumberU64 ZONE head) = None /\
  fst (ReorgNeeded ZONE
         (forker None (None, Some ancestor_unknown) false None)
         (Some head) (Some level) (world (1 # 4)))
  = Ret (false, Some ancestor_unknown) /\
  fst (ReorgNeeded ZONE
         (forker None (None, Some ancestor_unknown) false None)
         (Some head) (Some level) (world (1 # 4)))
  <> Ret (false, Some MissingData) /\
  Error ancestor_unknown <> Error MissingData.
Proof.
  repeat split; try reflexivity; simpl; discriminate.
Qed.

(** C6, as the code has it, on a head without a stored tuple and a [CalcTd]
    that does not fail. *)
Lemma ReorgNeeded_failed_or_missing_witness :
  fst (ReorgNeeded ZONE
         (forker None (tuple 1 2 3, None) false None)
         (Some head) (Some level) (world (1 # 4)))
  = Ret (false, Some MissingData).
Proof.
  apply (proj2 (ReorgNeeded_failed_or_missing ZONE
                  (forker None (tuple 1 2 3, None) false None)
                  head level None (tuple 1 2 3) None (world (1 # 4))
                  eq_refl eq_refl)).
  - reflexivity.
  - left. reflexivity.
Defined.

(** C7 on a [PCCRC] that reports a slice not synced. *)
Lemma UntwistAndTrim_benign_witness :
  fst (UntwistAndTrim
         (untwister (2, None) (Some (foreign 3 "slice is not synced")))
         head (world (1 # 4)))
  = Ret None.
Proof.
  apply (UntwistAndTrim_benign _ head 2 tt
           (foreign 3 "slice is not synced")).
  - reflexivity.
  - reflexivity.
  - reflexivity.
Defined.

(** C8 on a [PCCRC] that fails for another reason. *)
Lemma UntwistAndTrim_propagates_witness :
  fst (UntwistAndTrim (untwister (2, None) (Some ancestor_unknown))
         head (world (1 # 4)))
  = Ret (Some ancestor_unknown).
Proof.
  apply (proj1 (proj2 (UntwistAndTrim_propagates
                  (untwister (2, None) (Some ancestor_unknown))
                  head 2 tt None (Some ancestor_unknown) (world (1 # 4))
                  eq_refl eq_refl))).
  - reflexivity.
  - reflexivity.
  - reflexivity.
Defined.

(** C9 on a tie that [preserve] settles: a generator that would say yes and
    one that would say no give the same. *)
Lemma ReorgNeeded_deterministic_witness :
  fst (ReorgNeeded ZONE
         (forker (tuple 1 2 3) (tuple 1 2 3, None) false (Some mine))
         (Some head) (Some level) (world (1 # 4)))
  = fst (ReorgNeeded ZONE
           (forker (tuple 1 2 3) (tuple 1 2 3, None) false (Some mine))
           (Some head) (Some level) (world (3 # 4))) /\
  rng (snd (ReorgNeeded ZONE
              (forker (tuple 1 2 3) (tuple 1 2 3, None) false (Some mine))
              (Some head) (Some level) (world (1 # 4))))
  = rng (world (1 # 4)).
Proof.
  apply (ReorgNeeded_deterministic ZONE
           (forker (tuple 1 2 3) (tuple 1 2 3, None) false (Some mine))
           (Some head) (Some level) (world (3 # 4)) (world (1 # 4))).
  reflexivity.
Defined.

(** C10 on a tie at the same number without [preserve], and a generator
    that hands out one quarter. *)
Lemma ReorgNeeded_tie_coin_witness :
  fst (ReorgNeeded ZONE
         (forker (tuple 1 2 3) (tuple 1 2 3, None) false None)
         (Some head) (Some level) (world (1 # 4)))
  = Ret (true, None).
Proof.
  apply (proj1 (ReorgNeeded_tie_coin ZONE
                  (forker (tuple 1 2 3) (tuple 1 2 3, None) false None)
                  head level 1 2 3 1 2 3 (world (1 # 4))
                  eq_refl eq_refl eq_refl eq_refl eq_refl eq_refl
                  eq_refl eq_refl)).
  reflexivity.
Defined.

(** ** The edges of the model *)

(** A slice that is not nil but holds fewer than three integers is not a
    difficulty tuple: [equalTd] is computed whatever [HLCR] said, and the
    run panics on the first index. *)
Example short_slice_panics :
  fst (ReorgNeeded ZONE
         (forker (Some []) (tuple 1 2 3, None) true None)
         (Some head) (Some higher) (world (1 # 4)))
  = Panic IndexOutOfRange.
Proof. reflexivity. Qed.

(** The comparison stops at the first component that differs, so a shorter
    slice goes through when it differs there. *)
Example short_slice_differs_first :
  fst (ReorgNeeded ZONE
         (forker (Some [Some 1]) (tuple 2 2 3, None) true None)
         (Some head) (Some higher) (world (1 # 4)))
  = Ret (true, None).
Proof. reflexivity. Qed.

(** The number of a header is read through [Uint64]: it is the header's own
    number as long as that fits 64 bits. *)
Example NumberU64_head : NumberU64 ZONE head = 5.
Proof. reflexivity. Qed.

Example Uint64_wraps : big.Uint64 (2 ^ 64 + 1) = 1.
Proof. reflexivity. Qed.

(** A preferred candidate wins a tie against a head that is not, without a
    draw. *)
Example preferred_candidate_wins :
  ReorgNeeded ZONE
    (forker (tuple 1 2 3) (tuple 1 2 3, None) false (Some mine))
    (Some level) (Some head) (world (3 # 4))
  = (Ret (true, None),
     mkWorld (mrand.mkRand (fun _ => 3 # 4)%Q 0)
       [ Call_GetTd 8 5; Println [PString "calctd from forker"];
         Call_CalcTd head; Call_HLCR (tuple 1 2 3) (tuple 1 2 3);
         Call_preserve level; Call_preserve head ]).
Proof. reflexivity. Qed.

(** The same tie without [preserve], and a generator that hands out three
    quarters: the head stays. *)
Example coin_says_no :
  fst (ReorgNeeded ZONE
         (forker (tuple 1 2 3) (tuple 1 2 3, None) false None)
         (Some head) (Some level) (world (3 # 4)))
  = Ret (false, None).
Proof. reflexivity. Qed.

(** A failed [GetDifficultyOrder] comes back as it is, its text being one of
    the two let through or not, and [PCCRC] is not called. *)
Example order_failure_is_returned :
  UntwistAndTrim
    (untwister (0, Some (foreign 9 "slice is not synced")) None)
    head (world (1 # 4))
  = (Ret (Some (foreign 9 "slice is not synced")),
     mkWorld (mrand.mkRand (fun _ => 1 # 4)%Q 0)
       [ Call_GetDifficultyOrder head ]).
Proof. reflexivity. Qed.

(** ** Further properties of the two functions *)

Section Further.

Context {Hash ChainConfig Block PCRCTermini : Type}.
Variable QuaiNetworkContext : nat.

Implicit Types (f : ForkChoice Hash ChainConfig Block PCRCTermini).
Implicit Types (w : World Hash) (e : error) (cur cand : Header Hash).

(** Runs [ReorgNeeded] as far as the equations at hand take it. *)
Ltac run :=
  unfold ReorgNeeded, tie_break, call, emit, bind, ret, rand_Float64;
  simpl;
  repeat (match goal with H : _ |- _ => rewrite H end; simpl);
  rewrite <- ?app_assoc; simpl.

(** A run that ends without a draw, with an outcome that is known. *)
Ltac settled :=
  left; eexists; eexists; split;
  [ intros w; run; reflexivity
  | intros b e' Hr;
    first
      [ discriminate Hr
      | injection Hr as <- <-;
        split;
        [reflexivity | first [left; reflexivity | right; reflexivity]] ] ].

(** Every run of [ReorgNeeded] on two headers is of one of two kinds. Either
    it draws nothing, and then its outcome and what it does are the same in
    every world, and an error in it comes with false and is "missing td" or
    the error of [CalcTd]. Or [CalcTd] did not fail, no slice is nil, [HLCR]
    is false, the comparison of the slices says equal, the two numbers are
    equal, [preserve] is missing or false of both headers, and the run
    returns what the next number of the generator says. *)
Lemma ReorgNeeded_run f cur cand :
  (exists r evs,
     (forall w,
        ReorgNeeded QuaiNetworkContext f (Some cur) (Some cand) w =
        (r, mkWorld (rng w) (trace w ++ evs))) /\
     (forall b e, r = Ret (b, Some e) ->
        b = false /\
        (e = MissingData \/ snd (CalcTd (chain f) cand) = Some e))) \/
  (exists l x evs,
     GetTd (chain f) (Header_Hash cur) (NumberU64 QuaiNetworkContext cur)
       = Some l /\
     CalcTd (chain f) cand = (Some x, None) /\
     HLCR (chain f) (Some l) (Some x) = false /\
     (forall w, equalTd_of x l w = (Ret true, w)) /\
     NumberU64 QuaiNetworkContext cand = NumberU64 QuaiNetworkContext cur /\
     (forall p, preserve f = Some p -> p cur = false /\ p cand = false) /\
     (forall w,
        ReorgNeeded QuaiNetworkContext f (Some cur) (Some cand) w =
        (Ret (Qltb (mrand.draws (rng w) (mrand.taken (rng w))) (1 # 2),
              None),
         mkWorld (mrand.mkRand (mrand.draws (rng w))
                               (S (mrand.taken (rng w))))
                 (trace w ++ evs)))).
Proof.
  destruct (CalcTd (chain f) cand) as [externTd [e|]] eqn:He;
    [settled|].
  destruct (GetTd (chain f) (Header_Hash cur)
              (NumberU64 QuaiNetworkContext cur)) as [l|] eqn:Hl.
  2:{ destruct externTd; settled. }
  destruct externTd as [x|]; [|settled].
  destruct (equalTd_of_pure (Hash:=Hash) x l) as [o Ho].
  destruct (HLCR (chain f) (Some l) (Some x)) eqn:Hh;
    destruct o as [[|]|p]; try settled.
  destruct (NumberU64 QuaiNetworkContext cand <?
            NumberU64 QuaiNetworkContext cur) eqn:Hlt; [settled|].
  destruct (NumberU64 QuaiNetworkContext cand =?
            NumberU64 QuaiNetworkContext cur) eqn:Heq; [|settled].
  destruct (preserve f) as [p|] eqn:Hp.
  - destruct (p cur) eqn:Hcur; [settled|].
    destruct (p cand) eqn:Hcand; [settled|].
    right. exists l, x. eexists.
    split; [reflexivity|]. split; [reflexivity|].
    split; [exact Hh|]. split; [exact Ho|].
    split; [apply Z.eqb_eq; exact Heq|].
    split.
    + intros p' Hp'. injection Hp' as <-. split; assumption.
    + intros w. run. reflexivity.
  - right. exists l, x. eexists.
    split; [reflexivity|]. split; [reflexivity|].
    split; [exact Hh|]. split; [exact Ho|].
    split; [apply Z.eqb_eq; exact Heq|].
    split.
    + intros p' Hp'. discriminate Hp'.
    + intros w. run. reflexivity.
Qed.

(** With a nil header the run ends at once. *)
Lemma ReorgNeeded_nil_run f (cur cand : option (Header Hash)) w :
  cur = None \/ cand = None ->
  ReorgNeeded QuaiNetworkContext f cur cand w
    = (Ret (false, Some InvalidInput), w).
Proof.
  intros [-> | ->]; [destruct cand | destruct cur]; reflexivity.
Qed.

(** X1. Whenever [ReorgNeeded] returns an error, the boolean beside it is
    false, and the error is one of three: the one made for a nil header,
    the one made for a missing tuple, or the very error [CalcTd] answered
    for the candidate. *)
Theorem ReorgNeeded_error_comes_with_false f
  (cur cand : option (Header Hash)) w (b : bool) e :
  fst (ReorgNeeded QuaiNetworkContext f cur cand w) = Ret (b, Some e) ->
  b = false /\
  (e = InvalidInput \/ e = MissingData \/
   exists c, cand = Some c /\ snd (CalcTd (chain f) c) = Some e).
Proof.
  intros Hr.
  destruct cur as [c|];
    [destruct cand as [h|]|];
    try (rewrite ReorgNeeded_nil_run in Hr by (auto; fail);
         injection Hr as <- <-; split; [reflexivity | left; reflexivity]).
  destruct (ReorgNeeded_run f c h) as
    [(r & evs & Hrun & Herr) | (l & x & evs & _ & _ & _ & _ & _ & _ & Hrun)];
    rewrite Hrun in Hr; simpl in Hr.
  - destruct (Herr b e Hr) as [Hb [Hm | Hc]].
    + split; [exact Hb | right; left; exact Hm].
    + split; [exact Hb | right; right; exists h; split; [reflexivity|exact Hc]].
  - discriminate Hr.
Qed.

(** X2. A run of [ReorgNeeded] leaves the sequence of the generator as it
    is and takes no number from it or exactly one. *)
Theorem ReorgNeeded_draws_at_most_once f
  (cur cand : option (Header Hash)) w :
  mrand.draws (rng (snd (ReorgNeeded QuaiNetworkContext f cur cand w)))
    = mrand.draws (rng w) /\
  (mrand.taken (rng (snd (ReorgNeeded QuaiNetworkContext f cur cand w)))
     = mrand.taken (rng w) \/
   mrand.taken (rng (snd (ReorgNeeded QuaiNetworkContext f cur cand w)))
     = S (mrand.taken (rng w))).
Proof.
  destruct cur as [c|];
    [destruct cand as [h|]|];
    try (rewrite ReorgNeeded_nil_run by (auto; fail);
         split; [reflexivity | left; reflexivity]).
  destruct (ReorgNeeded_run f c h) as
    [(r & evs & Hrun & _) | (l & x & evs & _ & _ & _ & _ & _ & _ & Hrun)];
    rewrite Hrun; simpl.
  - split; [reflexivity | left; reflexivity].
  - split; [reflexivity | right; reflexivity].
Qed.

(** X3. A number is drawn only on an open tie: both headers are there,
    [CalcTd] did not fail, no slice is nil, [HLCR] said false, the slices
    compare equal, the two numbers are equal, and [preserve] is missing or
    false of both headers. *)
Theorem ReorgNeeded_draw_needs_open_tie f
  (cur cand : option (Header Hash)) w :
  mrand.taken (rng (snd (ReorgNeeded QuaiNetworkContext f cur cand w)))
    <> mrand.taken (rng w) ->
  exists c h l x,
    cur = Some c /\ cand = Some h /\
    GetTd (chain f) (Header_Hash c) (NumberU64 QuaiNetworkContext c)
      = Some l /\
    CalcTd (chain f) h = (Some x, None) /\
    HLCR (chain f) (Some l) (Some x) = false /\
    fst (equalTd_of x l w) = Ret true /\
    NumberU64 QuaiNetworkContext h = NumberU64 QuaiNetworkContext c /\
    (forall p, preserve f = Some p -> p c = false /\ p h = false).
Proof.
  intros Hdrawn.
  destruct cur as [c|];
    [destruct cand as [h|]|];
    try (rewrite ReorgNeeded_nil_run in Hdrawn by (auto; fail);
         exfalso; apply Hdrawn; reflexivity).
  destruct (ReorgNeeded_run f c h) as
    [(r & evs & Hrun & _)
    | (l & x & evs & Hl & He & Hh & Ho & Hnum & Hp & Hrun)].
  - rewrite Hrun in Hdrawn. exfalso. apply Hdrawn. reflexivity.
  - exists c, h, l, x. rewrite Ho. repeat split; try assumption.
    + apply (proj1 (Hp p H)).
    + apply (proj2 (Hp p H)).
Qed.




(** X5. When both tuples are there and differ in a component, there is no
    tie to break: [ReorgNeeded] returns what [HLCR] said, with no error,
    and does nothing after the call of [HLCR]. *)
Theorem ReorgNeeded_unequal_tuples f cur cand (a0 a1 a2 b0 b1 b2 : Z) w :
  GetTd (chain f) (Header_Hash cur) (NumberU64 QuaiNetworkContext cur)
    = tuple a0 a1 a2 ->
  CalcTd (chain f) cand = (tuple b0 b1 b2, None) ->
  (b0, b1, b2) <> (a0, a1, a2) ->
  ReorgNeeded QuaiNetworkContext f (Some cur) (Some cand) w =
  (Ret (HLCR (chain f) (tuple a0 a1 a2) (tuple b0 b1 b2), None),
   mkWorld (rng w)
     (trace w ++
      prologue QuaiNetworkContext cur cand
        (tuple a0 a1 a2) (tuple b0 b1 b2))).
Proof.
  intros Hl He Hne.
  rewrite (ReorgNeeded_tuples QuaiNetworkContext f cur cand
             a0 a1 a2 b0 b1 b2 w Hl He).
  cbv zeta.
  destruct (Z.eqb_spec b0 a0) as [E0|N0];
    [destruct (Z.eqb_spec b1 a1) as [E1|N1];
     [destruct (Z.eqb_spec b2 a2) as [E2|N2]|]|];
    simpl; rewrite ?andb_false_r; try reflexivity.
  exfalso. apply Hne. rewrite E0, E1, E2. reflexivity.
Qed.

(** X6. On a tie at equal numbers, a head that [preserve] holds of stays,
    whatever [preserve] says of the candidate: [ReorgNeeded] returns
    [(false, nil)]; [preserve] has been asked about both headers and no
    number is drawn. *)
Theorem ReorgNeeded_tie_preferred_head_stays f cur cand p
  (a0 a1 a2 : Z) w :
  GetTd (chain f) (Header_Hash cur) (NumberU64 QuaiNetworkContext cur)
    = tuple a0 a1 a2 ->
  CalcTd (chain f) cand = (tuple a0 a1 a2, None) ->
  HLCR (chain f) (tuple a0 a1 a2) (tuple a0 a1 a2) = false ->
  NumberU64 QuaiNetworkContext cand = NumberU64 QuaiNetworkContext cur ->
  preserve f = Some p -> p cur = true ->
  ReorgNeeded QuaiNetworkContext f (Some cur) (Some cand) w =
  (Ret (false, None),
   mkWorld (rng w)
     (trace w ++
      prologue QuaiNetworkContext cur cand
        (tuple a0 a1 a2) (tuple a0 a1 a2)
      ++ [Call_preserve cur; Call_preserve cand])).
Proof.
  intros Hl He Hh Heq Hp Hcur.
  rewrite (ReorgNeeded_tuples QuaiNetworkContext f cur cand
             a0 a1 a2 a0 a1 a2 w Hl He).
  cbv zeta. rewrite Hh, !Z.eqb_refl. simpl.
  unfold bind.
  rewrite (tie_break_level_preserve QuaiNetworkContext _ _ _ _ _ _ Heq Hp).
  cbv zeta. rewrite Hcur. simpl. unfold ret.
  rewrite <- app_assoc. reflexivity.
Qed.

(** X7. On a tie at equal numbers, a candidate that [preserve] holds of
    wins against a head it does not hold of: [ReorgNeeded] returns
    [(true, nil)] and no number is drawn. *)
Theorem ReorgNeeded_tie_preferred_candidate_wins f cur cand p
  (a0 a1 a2 : Z) w :
  GetTd (chain f) (Header_Hash cur) (NumberU64 QuaiNetworkContext cur)
    = tuple a0 a1 a2 ->
  CalcTd (chain f) cand = (tuple a0 a1 a2, None) ->
  HLCR (chain f) (tuple a0 a1 a2) (tuple a0 a1 a2) = false ->
  NumberU64 QuaiNetworkContext cand = NumberU64 QuaiNetworkContext cur ->
  preserve f = Some p -> p cur = false -> p cand = true ->
  ReorgNeeded QuaiNetworkContext f (Some cur) (Some cand) w =
  (Ret (true, None),
   mkWorld (rng w)
     (trace w ++
      prologue QuaiNetworkContext cur cand
        (tuple a0 a1 a2) (tuple a0 a1 a2)
      ++ [Call_preserve cur; Call_preserve cand])).
Proof.
  intros Hl He Hh Heq Hp Hcur Hcand.
  rewrite (ReorgNeeded_tuples QuaiNetworkContext f cur cand
             a0 a1 a2 a0 a1 a2 w Hl He).
  cbv zeta. rewrite Hh, !Z.eqb_refl. simpl.
  unfold bind.
  rewrite (tie_break_level_preserve QuaiNetworkContext _ _ _ _ _ _ Heq Hp).
  cbv zeta. rewrite Hcur, Hcand. simpl. unfold ret.
  rewrite <- app_assoc. reflexivity.
Qed.

(** X8. On a tie at equal numbers with a [preserve] that holds of neither
    header, the coin decides: [preserve] is asked about both, one number is
    drawn, and [ReorgNeeded] returns true exactly when it is below one
    half. *)
Theorem ReorgNeeded_tie_nobody_preferred f cur cand p (a0 a1 a2 : Z) w :
  GetTd (chain f) (Header_Hash cur) (NumberU64 QuaiNetworkContext cur)
    = tuple a0 a1 a2 ->
  CalcTd (chain f) cand = (tuple a0 a1 a2, None) ->
  HLCR (chain f) (tuple a0 a1 a2) (tuple a0 a1 a2) = false ->
  NumberU64 QuaiNetworkContext cand = NumberU64 QuaiNetworkContext cur ->
  preserve f = Some p -> p cur = false -> p cand = false ->
  ReorgNeeded QuaiNetworkContext f (Some cur) (Some cand) w =
  (Ret (Qltb (mrand.draws (rng w) (mrand.taken (rng w))) (1 # 2), None),
   mkWorld (mrand.mkRand (mrand.draws (rng w)) (S (mrand.taken (rng w))))
     (trace w ++
      prologue QuaiNetworkContext cur cand
        (tuple a0 a1 a2) (tuple a0 a1 a2)
      ++ [Call_preserve cur; Call_preserve cand; Draw_Float64])).
Proof.
  intros Hl He Hh Heq Hp Hcur Hcand.
  rewrite (ReorgNeeded_tuples QuaiNetworkContext f cur cand
             a0 a1 a2 a0 a1 a2 w Hl He).
  cbv zeta. rewrite Hh, !Z.eqb_refl. simpl.
  unfold bind.
  rewrite (tie_break_level_preserve QuaiNetworkContext _ _ _ _ _ _ Heq Hp).
  cbv zeta. rewrite Hcur, Hcand. simpl. unfold ret.
  rewrite <- !app_assoc. reflexivity.
Qed.

(** X9. The nil check does not catch an empty slice: when [CalcTd] does not
    fail, no slice is nil and one of them is empty, the run panics on an
    index out of range, after [HLCR] has been called and whatever it
    said. *)
Theorem ReorgNeeded_empty_slice_panics f cur cand
  (l x : list (option Z)) w :
  GetTd (chain f) (Header_Hash cur) (NumberU64 QuaiNetworkContext cur)
    = Some l ->
  CalcTd (chain f) cand = (Some x, None) ->
  l = [] \/ x = [] ->
  ReorgNeeded QuaiNetworkContext f (Some cur) (Some cand) w =
  (Panic IndexOutOfRange,
   mkWorld (rng w)
     (trace w ++ prologue QuaiNetworkContext cur cand (Some l) (Some x))).
Proof.
  intros Hl He Hempty.
  unfold ReorgNeeded, call, emit, bind, ret. simpl.
  rewrite Hl, He. simpl. rewrite <- !app_assoc. simpl.
  destruct Hempty as [-> | ->]; [destruct x|]; reflexivity.
Qed.

(** X10. The comparison of the slices stops at the first component: when
    the two first components are integers that differ, nothing else of the
    slices is read, whatever their lengths, and [ReorgNeeded] returns what
    [HLCR] said. *)
Theorem ReorgNeeded_first_component_decides f cur cand (a b : Z)
  (l x : list (option Z)) w :
  GetTd (chain f) (Header_Hash cur) (NumberU64 QuaiNetworkContext cur)
    = Some (Some a :: l) ->
  CalcTd (chain f) cand = (Some (Some b :: x), None) ->
  b <> a ->
  ReorgNeeded QuaiNetworkContext f (Some cur) (Some cand) w =
  (Ret (HLCR (chain f) (Some (Some a :: l)) (Some (Some b :: x)), None),
   mkWorld (rng w)
     (trace w ++
      prologue QuaiNetworkContext cur cand
        (Some (Some a :: l)) (Some (Some b :: x)))).
Proof.
  intros Hl He Hne.
  unfold ReorgNeeded, equalTd_of, andM, component_equal, call, emit, bind,
    ret, lift.
  simpl. rewrite Hl, He. simpl. rewrite <- !app_assoc. simpl.
  rewrite Cmp_zero.
  destruct (Z.eqb_spec b a) as [Heq|_]; [contradiction|].
  rewrite andb_false_r. reflexivity.
Qed.




(** An open tie: what the run returns and what it leaves of the
    generator. *)
Lemma open_tie_run f cur cand (a0 a1 a2 : Z) w :
  GetTd (chain f) (Header_Hash cur) (NumberU64 QuaiNetworkContext cur)
    = tuple a0 a1 a2 ->
  CalcTd (chain f) cand = (tuple a0 a1 a2, None) ->
  HLCR (chain f) (tuple a0 a1 a2) (tuple a0 a1 a2) = false ->
  NumberU64 QuaiNetworkContext cand = NumberU64 QuaiNetworkContext cur ->
  (forall p, preserve f = Some p -> p cur = false /\ p cand = false) ->
  fst (ReorgNeeded QuaiNetworkContext f (Some cur) (Some cand) w)
    = Ret (Qltb (mrand.draws (rng w) (mrand.taken (rng w))) (1 # 2), None)
  /\
  rng (snd (ReorgNeeded QuaiNetworkContext f (Some cur) (Some cand) w))
    = mrand.mkRand (mrand.draws (rng w)) (S (mrand.taken (rng w))).
Proof.
  intros Hl He Hh Heq Hnone.
  rewrite (ReorgNeeded_tuples QuaiNetworkContext f cur cand
             a0 a1 a2 a0 a1 a2 w Hl He).
  cbv zeta. rewrite Hh, !Z.eqb_refl. simpl.
  unfold bind.
  destruct (preserve f) as [p|] eqn:Hp.
  - destruct (Hnone p eq_refl) as [Hcur Hcand].
    rewrite (tie_break_level_preserve QuaiNetworkContext _ _ _ _ _ _ Heq Hp).
    cbv zeta. rewrite Hcur, Hcand. simpl. split; reflexivity.
  - rewrite (tie_break_level_nil QuaiNetworkContext _ _ _ _ _ Heq Hp).
    simpl. split; reflexivity.
Qed.

(** X12. Two runs in a row on an open tie (tuples equal, [HLCR] false,
    numbers equal, [preserve] missing or false of both headers) are decided
    by two numbers in a row of the generator: the first by the next number,
    the second by the one after it. *)
Theorem ReorgNeeded_successive_coins f cur cand (a0 a1 a2 : Z) w :
  GetTd (chain f) (Header_Hash cur) (NumberU64 QuaiNetworkContext cur)
    = tuple a0 a1 a2 ->
  CalcTd (chain f) cand = (tuple a0 a1 a2, None) ->
  HLCR (chain f) (tuple a0 a1 a2) (tuple a0 a1 a2) = false ->
  NumberU64 QuaiNetworkContext cand = NumberU64 QuaiNetworkContext cur ->
  (forall p, preserve f = Some p -> p cur = false /\ p cand = false) ->
  fst (ReorgNeeded QuaiNetworkContext f (Some cur) (Some cand) w)
    = Ret (Qltb (mrand.draws (rng w) (mrand.taken (rng w))) (1 # 2), None)
  /\
  fst (ReorgNeeded QuaiNetworkContext f (Some cur) (Some cand)
         (snd (ReorgNeeded QuaiNetworkContext f (Some cur) (Some cand) w)))
    = Ret (Qltb (mrand.draws (rng w) (S (mrand.taken (rng w)))) (1 # 2),
           None)
  /\
  mrand.taken
    (rng (snd (ReorgNeeded QuaiNetworkContext f (Some cur) (Some cand)
                 (snd (ReorgNeeded QuaiNetworkContext f
                         (Some cur) (Some cand) w)))))
    = S (S (mrand.taken (rng w))).
Proof.
  intros Hl He Hh Heq Hnone.
  destruct (open_tie_run f cur cand a0 a1 a2 w Hl He Hh Heq Hnone)
    as [Hfirst Hrng].
  destruct (open_tie_run f cur cand a0 a1 a2
              (snd (ReorgNeeded QuaiNetworkContext f
                      (Some cur) (Some cand) w))
              Hl He Hh Heq Hnone)
    as [Hsecond Hrng'].
  split; [exact Hfirst|].
  rewrite Hsecond, Hrng', Hrng. simpl. split; reflexivity.
Qed.

(** X13. When [CalcTd] fails or a slice is nil, the run stops after the
    call of [CalcTd]: [GetTd] and [CalcTd] have both been called, neither
    [HLCR] nor [preserve] is, and no number is drawn. *)
Theorem ReorgNeeded_stops_before_HLCR f cur cand w :
  snd (CalcTd (chain f) cand) <> None \/
  GetTd (chain f) (Header_Hash cur) (NumberU64 QuaiNetworkContext cur)
    = None \/
  fst (CalcTd (chain f) cand) = None ->
  snd (ReorgNeeded QuaiNetworkContext f (Some cur) (Some cand) w) =
  mkWorld (rng w)
    (trace w ++
     [ Call_GetTd (Header_Hash cur) (NumberU64 QuaiNetworkContext cur);
       Println [PString "calctd from forker"];
       Call_CalcTd cand ]).
Proof.
  intros Hstop.
  destruct (CalcTd (chain f) cand) as [externTd [e|]] eqn:He.
  - rewrite (ReorgNeeded_CalcTd_fails QuaiNetworkContext f cur cand
               externTd e w He).
    reflexivity.
  - rewrite (ReorgNeeded_nil_tuple QuaiNetworkContext f cur cand
               externTd w He).
    + reflexivity.
    + simpl in Hstop. destruct Hstop as [Hfail | [Hnil | Hnil]].
      * exfalso. apply Hfail. reflexivity.
      * left. exact Hnil.
      * right. exact Hnil.
Qed.

(** X14. [UntwistAndTrim] makes up no error and lets no benign one
    through: an error it returns is the very error of [GetDifficultyOrder],
    or it is the very error of [PCCRC], asked with the order
    [GetDifficultyOrder] gave, and then its text is neither of the two the
    function lets through. *)
Theorem UntwistAndTrim_error_origin f (h : Header Hash) w e :
  fst (UntwistAndTrim f h w) = Ret (Some e) ->
  snd (GetDifficultyOrder (chain f) h) = Some e \/
  (snd (GetDifficultyOrder (chain f) h) = None /\
   snd (PCCRC (chain f) h (fst (GetDifficultyOrder (chain f) h))) = Some e /\
   benign e = false).
Proof.
  unfold UntwistAndTrim, call, emit, bind, ret, benign. simpl.
  destruct (GetDifficultyOrder (chain f) h) as [order [e1|]]; simpl.
  - intros Hr. injection Hr as <-. left. reflexivity.
  - destruct (PCCRC (chain f) h order) as [termini [e2|]]; simpl.
    + destruct (Error e2 =? "slice is not synced")%string eqn:H1; simpl;
        [intros Hr; discriminate Hr|].
      destruct (Error e2 =?
                "PCCOP has found chain is not being built on canonical dom"
               )%string eqn:H2; simpl;
        [intros Hr; discriminate Hr|].
      intros Hr. injection Hr as <-. right.
      rewrite H1, H2. repeat split; reflexivity.
    + intros Hr. discriminate Hr.
Qed.

(** X15. [UntwistAndTrim] returns nil exactly when [GetDifficultyOrder]
    does not fail and [PCCRC], asked with the order it gave, does not fail
    or fails with an error whose text is one of the two let through. *)
Theorem UntwistAndTrim_accepts_iff f (h : Header Hash) w :
  fst (UntwistAndTrim f h w) = Ret None <->
  snd (GetDifficultyOrder (chain f) h) = None /\
  (snd (PCCRC (chain f) h (fst (GetDifficultyOrder (chain f) h))) = None \/
   exists e,
     snd (PCCRC (chain f) h (fst (GetDifficultyOrder (chain f) h)))
       = Some e /\
     benign e = true).
Proof.
  unfold UntwistAndTrim, call, emit, bind, ret, benign. simpl.
  destruct (GetDifficultyOrder (chain f) h) as [order [e1|]]; simpl.
  { split; [intros Hr; discriminate Hr | intros [Hn _]; discriminate Hn]. }
  destruct (PCCRC (chain f) h order) as [termini [e2|]]; simpl.
  2:{ split; [intros _; split; [reflexivity | left; reflexivity]
             | reflexivity]. }
  destruct (Error e2 =? "slice is not synced")%string eqn:H1; simpl.
  { split; [|reflexivity]. intros _. split; [reflexivity|].
    right. exists e2. rewrite H1. split; reflexivity. }
  destruct (Error e2 =?
            "PCCOP has found chain is not being built on canonical dom"
           )%string eqn:H2; simpl.
  { split; [|reflexivity]. intros _. split; [reflexivity|].
    right. exists e2. rewrite H1, H2. split; reflexivity. }
  split; [intros Hr; discriminate Hr|].
  intros [_ [Hn | (e & He & Hb)]]; [discriminate Hn|].
  injection He as <-. rewrite H1, H2 in Hb. discriminate Hb.
Qed.

(** X16. When [GetDifficultyOrder] fails, [UntwistAndTrim] stops there: its
    error is returned, [PCCRC] is not called and nothing is printed. *)
Theorem UntwistAndTrim_order_failure_stops f (h : Header Hash)
  (order : Z) e w :
  GetDifficultyOrder (chain f) h = (order, Some e) ->
  UntwistAndTrim f h w =
  (Ret (Some e),
   mkWorld (rng w) (trace w ++ [Call_GetDifficultyOrder h])).
Proof.
  intros Ho. unfold UntwistAndTrim, call, emit, bind, ret. simpl.
  rewrite Ho. reflexivity.
Qed.

(** X17. The two conditions let through are not treated alike: on "slice
    is not synced" the error is printed a second time and a debug line is
    logged with the hash of the header; on the other one nothing follows
    the first print. In both, [PCCRC] was asked with the order
    [GetDifficultyOrder] gave. *)
Theorem UntwistAndTrim_benign_logging f (h : Header Hash) (order : Z)
  (termini : PCRCTermini) e w :
  GetDifficultyOrder (chain f) h = (order, None) ->
  PCCRC (chain f) h order = (termini, Some e) ->
  (Error e = "slice is not synced"%string ->
   UntwistAndTrim f h w =
   (Ret None,
    mkWorld (rng w)
      (trace w ++
       [ Call_GetDifficultyOrder h;
         Call_PCCRC h order;
         Println [PString "PCCRC"; PError (Some e)];
         Println [PString "PCCRC"; PError (Some e)];
         log_Debug "Slice not synced, no nothing" "hash"
                   (Header_Hash h) ]))) /\
  (Error e =
     "PCCOP has found chain is not being built on canonical dom"%string ->
   UntwistAndTrim f h w =
   (Ret None,
    mkWorld (rng w)
      (trace w ++
       [ Call_GetDifficultyOrder h;
         Call_PCCRC h order;
         Println [PString "PCCRC"; PError (Some e)] ]))).
Proof.
  intros Ho Hc.
  unfold UntwistAndTrim, call, emit, bind, ret. simpl.
  rewrite Ho. simpl. rewrite Hc. simpl.
  split; intros Htext; rewrite Htext; simpl; rewrite <- !app_assoc;
    reflexivity.
Qed.

End Further.

(** ** The further properties at work on the test doubles *)

(** X1 on a [CalcTd] that fails. *)
Lemma ReorgNeeded_error_comes_with_false_witness :
  false = false /\
  (ancestor_unknown = InvalidInput \/ ancestor_unknown = MissingData \/
   exists c,
     Some level = Some c /\
     snd (CalcTd (chain (forker None (None, Some ancestor_unknown)
                                false None)) c)
       = Some ancestor_unknown).
Proof.
  apply (ReorgNeeded_error_comes_with_false ZONE
           (forker None (None, Some ancestor_unknown) false None)
           (Some head) (Some level) (world (1 # 4))
           false ancestor_unknown).
  reflexivity.
Defined.

(** X3 on an open tie without [preserve]. *)
Lemma ReorgNeeded_draw_needs_open_tie_witness :
  exists c h l x,
    Some head = Some c /\ Some level = Some h /\
    GetTd (chain (forker (tuple 1 2 3) (tuple 1 2 3, None) false None))
          (Header_Hash c) (NumberU64 ZONE c) = Some l /\
    CalcTd (chain (forker (tuple 1 2 3) (tuple 1 2 3, None) false None)) h
      = (Some x, None) /\
    HLCR (chain (forker (tuple 1 2 3) (tuple 1 2 3, None) false None))
         (Some l) (Some x) = false /\
    fst (equalTd_of x l (world (1 # 4))) = Ret true /\
    NumberU64 ZONE h = NumberU64 ZONE c /\
    (forall p,
       preserve (forker (tuple 1 2 3) (tuple 1 2 3, None) false None)
         = Some p ->
       p c = false /\ p h = false).
Proof.
  apply (ReorgNeeded_draw_needs_open_tie ZONE
           (forker (tuple 1 2 3) (tuple 1 2 3, None) false None)
           (Some head) (Some level) (world (1 # 4))).
  simpl. discriminate.
Defined.

(** X5 on tuples that differ in the last component, with an [HLCR] that
    says false. *)
Lemma ReorgNeeded_unequal_tuples_witness :
  ReorgNeeded ZONE
    (forker (tuple 1 2 3) (tuple 1 2 2, None) false None)
    (Some head) (Some lower) (world (1 # 4))
  = (Ret (false, None),
     mkWorld (mrand.mkRand (fun _ => 1 # 4)%Q 0)
       [ Call_GetTd 7 5; Println [PString "calctd from forker"];
         Call_CalcTd lower; Call_HLCR (tuple 1 2 3) (tuple 1 2 2) ]).
Proof.
  apply (ReorgNeeded_unequal_tuples ZONE
           (forker (tuple 1 2 3) (tuple 1 2 2, None) false None)
           head lower 1 2 3 1 2 2 (world (1 # 4)));
    [reflexivity | reflexivity | discriminate].
Defined.

(** X6 on a head and a candidate that are both the node's own. *)
Lemma ReorgNeeded_tie_preferred_head_stays_witness :
  ReorgNeeded ZONE
    (forker (tuple 1 2 3) (tuple 1 2 3, None) false (Some (fun _ => true)))
    (Some head) (Some level) (world (1 # 4))
  = (Ret (false, None),
     mkWorld (mrand.mkRand (fun _ => 1 # 4)%Q 0)
       [ Call_GetTd 7 5; Println [PString "calctd from forker"];
         Call_CalcTd level; Call_HLCR (tuple 1 2 3) (tuple 1 2 3);
         Call_preserve head; Call_preserve level ]).
Proof.
  apply (ReorgNeeded_tie_preferred_head_stays ZONE
           (forker (tuple 1 2 3) (tuple 1 2 3, None) false
                   (Some (fun _ => true)))
           head level (fun _ => true) 1 2 3 (world (1 # 4)));
    reflexivity.
Defined.

(** X7 on a candidate that is the node's own, against a head that is not,
    with a generator that would have said no. *)
Lemma ReorgNeeded_tie_preferred_candidate_wins_witness :
  ReorgNeeded ZONE
    (forker (tuple 1 2 3) (tuple 1 2 3, None) false (Some mine))
    (Some level) (Some head) (world (3 # 4))
  = (Ret (true, None),
     mkWorld (mrand.mkRand (fun _ => 3 # 4)%Q 0)
       [ Call_GetTd 8 5; Println [PString "calctd from forker"];
         Call_CalcTd head; Call_HLCR (tuple 1 2 3) (tuple 1 2 3);
         Call_preserve level; Call_preserve head ]).
Proof.
  apply (ReorgNeeded_tie_preferred_candidate_wins ZONE
           (forker (tuple 1 2 3) (tuple 1 2 3, None) false (Some mine))
           level head mine 1 2 3 (world (3 # 4)));
    reflexivity.
Defined.

(** X8 on two headers that are not the node's own, and a generator that
    hands out three quarters. *)
Lemma ReorgNeeded_tie_nobody_preferred_witness :
  ReorgNeeded ZONE
    (forker (tuple 1 2 3) (tuple 1 2 3, None) false (Some mine))
    (Some level) (Some (header_at 5 9)) (world (3 # 4))
  = (Ret (false, None),
     mkWorld (mrand.mkRand (fun _ => 3 # 4)%Q 1)
       [ Call_GetTd 8 5; Println [PString "calctd from forker"];
         Call_CalcTd (header_at 5 9);
         Call_HLCR (tuple 1 2 3) (tuple 1 2 3);
         Call_preserve level; Call_preserve (header_at 5 9);
         Draw_Float64 ]).
Proof.
  apply (ReorgNeeded_tie_nobody_preferred ZONE
           (forker (tuple 1 2 3) (tuple 1 2 3, None) false (Some mine))
           level (header_at 5 9) mine 1 2 3 (world (3 # 4)));
    reflexivity.
Defined.

(** X9 on an empty slice from [CalcTd] and an [HLCR] that says true. *)
Lemma ReorgNeeded_empty_slice_panics_witness :
  ReorgNeeded ZONE
    (forker (tuple 1 2 3) (Some [], None) true None)
    (Some head) (Some higher) (world (1 # 4))
  = (Panic IndexOutOfRange,
     mkWorld (mrand.mkRand (fun _ => 1 # 4)%Q 0)
       [ Call_GetTd 7 5; Println [PString "calctd from forker"];
         Call_CalcTd higher; Call_HLCR (tuple 1 2 3) (Some []) ]).
Proof.
  apply (ReorgNeeded_empty_slice_panics ZONE
           (forker (tuple 1 2 3) (Some [], None) true None)
           head higher [Some 1; Some 2; Some 3] [] (world (1 # 4)));
    [reflexivity | reflexivity | right; reflexivity].
Defined.

(** X10 on a stored slice of one integer and a computed one whose second
    pointer is nil. *)
Lemma ReorgNeeded_first_component_decides_witness :
  ReorgNeeded ZONE
    (forker (Some [Some 1]) (Some [Some 2; None], None) true None)
    (Some head) (Some higher) (world (1 # 4))
  = (Ret (true, None),
     mkWorld (mrand.mkRand (fun _ => 1 # 4)%Q 0)
       [ Call_GetTd 7 5; Println [PString "calctd from forker"];
         Call_CalcTd higher;
         Call_HLCR (Some [Some 1]) (Some [Some 2; None]) ]).
Proof.
  apply (ReorgNeeded_first_component_decides ZONE
           (forker (Some [Some 1]) (Some [Some 2; None], None) true None)
           head higher 1 2 [] [None] (world (1 # 4)));
    [reflexivity | reflexivity | discriminate].
Defined.


(** X12 on an open tie without [preserve] and a generator that hands out
    one quarter, then three quarters: yes, then no. *)
Lemma ReorgNeeded_successive_coins_witness :
  fst (ReorgNeeded ZONE
         (forker (tuple 1 2 3) (tuple 1 2 3, None) false None)
         (Some head) (Some level)
         (mkWorld (mrand.mkRand
                     (fun n => match n with
                               | O => 1 # 4
                               | S _ => 3 # 4
                               end)%Q 0) []))
  = Ret (true, None) /\
  fst (ReorgNeeded ZONE
         (forker (tuple 1 2 3) (tuple 1 2 3, None) false None)
         (Some head) (Some level)
         (snd (ReorgNeeded ZONE
                 (forker (tuple 1 2 3) (tuple 1 2 3, None) false None)
                 (Some head) (Some level)
                 (mkWorld (mrand.mkRand
                             (fun n => match n with
                                       | O => 1 # 4
                                       | S _ => 3 # 4
                                       end)%Q 0) []))))
  = Ret (false, None) /\
  mrand.taken
    (rng (snd (ReorgNeeded ZONE
                 (forker (tuple 1 2 3) (tuple 1 2 3, None) false None)
                 (Some head) (Some level)
                 (snd (ReorgNeeded ZONE
                         (forker (tuple 1 2 3) (tuple 1 2 3, None)
                                 false None)
                         (Some head) (Some level)
                         (mkWorld (mrand.mkRand
                                     (fun n => match n with
                                               | O => 1 # 4
                                               | S _ => 3 # 4
                                               end)%Q 0) []))))))
  = 2%nat.
Proof.
  apply (ReorgNeeded_successive_coins ZONE
           (forker (tuple 1 2 3) (tuple 1 2 3, None) false None)
           head level 1 2 3
           (mkWorld (mrand.mkRand
                       (fun n => match n with
                                 | O => 1 # 4
                                 | S _ => 3 # 4
                                 end)%Q 0) []));
    try reflexivity.
  intros p Hp. discriminate Hp.
Defined.

(** X13 on a head without a stored tuple. *)
Lemma ReorgNeeded_stops_before_HLCR_witness :
  snd (ReorgNeeded ZONE
         (forker None (tuple 1 2 3, None) true (Some mine))
         (Some head) (Some level) (world (1 # 4)))
  = mkWorld (mrand.mkRand (fun _ => 1 # 4)%Q 0)
      [ Call_GetTd 7 5; Println [PString "calctd from forker"];
        Call_CalcTd level ].
Proof.
  apply (ReorgNeeded_stops_before_HLCR ZONE
           (forker None (tuple 1 2 3, None) true (Some mine))
           head level (world (1 # 4))).
  right. left. reflexivity.
Defined.

(** X14 on a [PCCRC] that fails for a reason of its own. *)
Lemma UntwistAndTrim_error_origin_witness :
  snd (GetDifficultyOrder
         (chain (untwister (2, None) (Some ancestor_unknown))) head)
    = Some ancestor_unknown \/
  (snd (GetDifficultyOrder
          (chain (untwister (2, None) (Some ancestor_unknown))) head)
     = None /\
   snd (PCCRC (chain (untwister (2, None) (Some ancestor_unknown))) head
          (fst (GetDifficultyOrder
                  (chain (untwister (2, None) (Some ancestor_unknown)))
                  head)))
     = Some ancestor_unknown /\
   benign ancestor_unknown = false).
Proof.
  apply (UntwistAndTrim_error_origin
           (untwister (2, None) (Some ancestor_unknown))
           head (world (1 # 4)) ancestor_unknown).
  reflexivity.
Defined.

(** X16 on a [GetDifficultyOrder] that fails, with a [PCCRC] that would
    have failed too. *)
Lemma UntwistAndTrim_order_failure_stops_witness :
  UntwistAndTrim
    (untwister (0, Some ancestor_unknown)
               (Some (foreign 4 "slice is not synced")))
    head (world (1 # 4))
  = (Ret (Some ancestor_unknown),
     mkWorld (mrand.mkRand (fun _ => 1 # 4)%Q 0)
       [ Call_GetDifficultyOrder head ]).
Proof.
  apply (UntwistAndTrim_order_failure_stops
           (untwister (0, Some ancestor_unknown)
                      (Some (foreign 4 "slice is not synced")))
           head 0 ancestor_unknown (world (1 # 4))).
  reflexivity.
Defined.

(** X17 on a [PCCRC] that reports the chain not built on the canonical
    dom. *)
Lemma UntwistAndTrim_benign_logging_witness :
  UntwistAndTrim
    (untwister (2, None)
       (Some (foreign 5
          "PCCOP has found chain is not being built on canonical dom")))
    head (world (1 # 4))
  = (Ret None,
     mkWorld (mrand.mkRand (fun _ => 1 # 4)%Q 0)
       [ Call_GetDifficultyOrder head;
         Call_PCCRC head 2;
         Println
           [ PString "PCCRC";
             PError (Some (foreign 5
               "PCCOP has found chain is not being built on canonical dom"))
           ] ]).
Proof.
  apply (proj2 (UntwistAndTrim_benign_logging
                  (untwister (2, None)
                     (Some (foreign 5
                        "PCCOP has found chain is not being built on canonical dom")))
                  head 2 tt
                  (foreign 5
                     "PCCOP has found chain is not being built on canonical dom")
                  (world (1 # 4)) eq_refl eq_refl)).
  reflexivity.
Defined.
